(** * SwiftCxxBridge.hpp: the bridging header of BlinkIDVerify.framework

    The repository ships one source artifact,
    [PrivateHeaders/SwiftCxxBridge.hpp].  It is a text file made of comments
    and preprocessor directives.  This development embeds

    - the file itself, byte for byte, as a string ([SwiftCxxBridge_hpp]);
    - the line structure and the lexical classes of its lines ([source_lines],
      [classify]): blank lines, [//] comments, preprocessor directives and
      everything else (code);
    - the meaning of the directives the file is written in: conditional
      sections selected by a build configuration ([select]), and the inclusion
      rule of the Clang family of preprocessors for [#include], [#import] and
      [#pragma once] ([exec_line], [run], [process_file]), with the nesting
      limit on inclusions as fuel.

    The statements about the header are proved on these definitions. *)

From Stdlib Require Import List String Ascii Arith Bool Lia.
Import ListNotations.
Open Scope string_scope.

(** ** The text of the file *)

Module Text.

(** Line feed, and the double quote that delimits a quoted header name. *)
Definition LF : string := String "010"%char EmptyString.
Definition DQ : string := String "034"%char EmptyString.

(** The sixteen physical lines of the file, as they are in the repository.
    The last line carries no terminating line feed. *)
Definition SwiftCxxBridge_hpp : string :=
  "//" ++ LF ++
  "//  SwiftCxxBridge.hpp" ++ LF ++
  "//  DocumentVerification" ++ LF ++
  "//" ++ LF ++
  "//  Created by DoDo on 11.09.2024.." ++ LF ++
  "//" ++ LF ++
  "" ++ LF ++
  "#pragma once" ++ LF ++
  "" ++ LF ++
  "// missing in Inputs.hpp within runner, so until fixed package gets propagated, this include is needed here" ++ LF ++
  "#include <tuple>" ++ LF ++
  "" ++ LF ++
  "#import " ++ DQ ++ "Frame/InputImage.hpp" ++ DQ ++ LF ++
  "#import " ++ DQ ++ "Session/NativeSession.hpp" ++ DQ ++ LF ++
  "#import " ++ DQ ++ "NativeDocumentVerify.hpp" ++ DQ ++ LF ++
  "#import " ++ DQ ++ "License/NativeLicenseProvider.hpp" ++ DQ.

(** Pieces of a text between line feeds: a text with [n] line feeds has
    [n + 1] pieces, the last one possibly empty. *)
Fixpoint pieces (s : string) : list string :=
  match s with
  | EmptyString => [EmptyString]
  | String c r =>
      if Ascii.eqb c "010"%char then EmptyString :: pieces r
      else match pieces r with
           | l :: ls => String c l :: ls
           | [] => [String c EmptyString]
           end
  end.

(** Physical source lines: the pieces, without the empty piece that follows a
    final line feed. *)
Definition source_lines (s : string) : list string :=
  let ps := pieces s in
  match last ps "x" with
  | EmptyString => removelast ps
  | _ => ps
  end.

Fixpoint count_LF (s : string) : nat :=
  match s with
  | EmptyString => 0
  | String c r => (if Ascii.eqb c "010"%char then 1 else 0) + count_LF r
  end.

End Text.

(** ** Lexical structure of a line

    A line is blank, a [//] comment, a directive (its first character other
    than a space is [#]) or code.  Block comments and line continuations are
    not recognised; a line that opens a block comment is classed as code. *)

Module Lexer.

Inductive header_name : Type :=
| Angle (path : string)      (* #include <path> *)
| Quoted (path : string).    (* #include "path" *)

Inductive directive : Type :=
| DPragmaOnce
| DInclude (h : header_name)
| DImport (h : header_name)
| DIf (cond : string)
| DIfdef (macro : string)
| DIfndef (macro : string)
| DElif (cond : string)
| DElse
| DEndif
| DOther (text : string).    (* #define, #error, other pragmas, ... *)

Inductive line_kind : Type :=
| Blank
| Comment (text : string)
| Directive (d : directive)
| Code (text : string).

Definition is_space (c : ascii) : bool :=
  let n := nat_of_ascii c in
  ((n =? 32) || ((9 <=? n) && (n <=? 13)))%nat.

Definition is_ident_char (c : ascii) : bool :=
  let n := nat_of_ascii c in
  (((97 <=? n) && (n <=? 122)) || ((65 <=? n) && (n <=? 90))
   || ((48 <=? n) && (n <=? 57)) || (n =? 95))%nat.

Fixpoint skip_spaces (s : string) : string :=
  match s with
  | String c r => if is_space c then skip_spaces r else s
  | EmptyString => EmptyString
  end.

Fixpoint take_ident (s : string) : string * string :=
  match s with
  | String c r =>
      if is_ident_char c
      then let (a, b) := take_ident r in (String c a, b)
      else (EmptyString, s)
  | EmptyString => (EmptyString, EmptyString)
  end.

Fixpoint take_until (d : ascii) (s : string) : option (string * string) :=
  match s with
  | EmptyString => None
  | String c r =>
      if Ascii.eqb c d then Some (EmptyString, r)
      else match take_until d r with
           | Some (a, b) => Some (String c a, b)
           | None => None
           end
  end.

(** What may follow a complete directive on its line: nothing but spaces, or
    a [//] comment. *)
Definition trailing_ok (s : string) : bool :=
  match skip_spaces s with
  | EmptyString => true
  | String "/" (String "/" _) => true
  | _ => false
  end.

(** The operand of [#include] and [#import]; an empty name is refused. *)
Definition parse_header (s : string) : option header_name :=
  match skip_spaces s with
  | String "<" r =>
      match take_until ">" r with
      | Some (p, rest) =>
          if trailing_ok rest && negb (String.eqb p "") then Some (Angle p)
          else None
      | None => None
      end
  | String "034" r =>
      match take_until "034" r with
      | Some (p, rest) =>
          if trailing_ok rest && negb (String.eqb p "") then Some (Quoted p)
          else None
      | None => None
      end
  | _ => None
  end.

(** The text of a condition, without the spaces before it. *)
Definition operand (s : string) : string := skip_spaces s.

(** The directive written after the [#] of a directive line. *)
Definition parse_directive (after_hash : string) : directive :=
  let (name, rest) := take_ident (skip_spaces after_hash) in
  if String.eqb name "pragma" then
    let (w, rest') := take_ident (skip_spaces rest) in
    if String.eqb w "once" && trailing_ok rest' then DPragmaOnce
    else DOther after_hash
  else if String.eqb name "include" then
    match parse_header rest with
    | Some h => DInclude h
    | None => DOther after_hash
    end
  else if String.eqb name "import" then
    match parse_header rest with
    | Some h => DImport h
    | None => DOther after_hash
    end
  else if String.eqb name "if" then DIf (operand rest)
  else if String.eqb name "ifdef" then DIfdef (fst (take_ident (skip_spaces rest)))
  else if String.eqb name "ifndef" then DIfndef (fst (take_ident (skip_spaces rest)))
  else if String.eqb name "elif" then DElif (operand rest)
  else if String.eqb name "else" then DElse
  else if String.eqb name "endif" then DEndif
  else DOther after_hash.

Definition classify (l : string) : line_kind :=
  match skip_spaces l with
  | EmptyString => Blank
  | String "/" (String "/" r) => Comment r
  | String "#" r => Directive (parse_directive r)
  | _ => Code l
  end.

(** The classified lines of a text, and the directives among them, in order. *)
Definition classified (text : string) : list line_kind :=
  map classify (Text.source_lines text).

Definition directive_of (k : line_kind) : option directive :=
  match k with
  | Directive d => Some d
  | _ => None
  end.

Fixpoint keep {A B : Type} (f : A -> option B) (l : list A) : list B :=
  match l with
  | [] => []
  | a :: r => match f a with
              | Some b => b :: keep f r
              | None => keep f r
              end
  end.

Definition directives (text : string) : list directive :=
  keep directive_of (classified text).

(** The header a directive brings in, if it is an inclusion directive. *)
Definition included_header (d : directive) : option header_name :=
  match d with
  | DInclude h | DImport h => Some h
  | _ => None
  end.

Definition included_headers (text : string) : list header_name :=
  keep included_header (directives text).

(** Framework headers are the ones named between double quotes; headers of
    the language implementation are named between angle brackets. *)
Definition quoted_path (h : header_name) : option string :=
  match h with
  | Quoted p => Some p
  | Angle _ => None
  end.

Definition framework_paths (text : string) : list string :=
  keep quoted_path (included_headers text).

(** The code lines of a text, and texts without any directive. *)
Definition code_of (k : line_kind) : option string :=
  match k with
  | Code t => Some t
  | _ => None
  end.

Definition code_lines (text : string) : list string :=
  keep code_of (classified text).

Definition no_directive (k : line_kind) : bool :=
  match k with
  | Directive _ => false
  | _ => true
  end.

Definition plain (text : string) : bool :=
  forallb no_directive (classified text).

Definition is_conditional (d : directive) : bool :=
  match d with
  | DIf _ | DIfdef _ | DIfndef _ | DElif _ | DElse | DEndif => true
  | _ => false
  end.

End Lexer.

Import Text Lexer.

(** ** Conditional sections *)

Module Conditional.

(** A build configuration: which macros are defined, and which [#if]
    conditions hold. *)
Record config : Type := {
  defined : string -> bool;
  holds : string -> bool
}.

(** An open conditional section: whether the enclosing text is live, whether
    a branch of the section has been taken, whether the present branch is
    live. *)
Record frame : Type := {
  outer : bool;
  taken : bool;
  live : bool
}.

Definition live_now (stack : list frame) : bool :=
  match stack with
  | [] => true
  | f :: _ => live f
  end.

Definition open_section (stack : list frame) (c : bool) : list frame :=
  let o := live_now stack in
  {| outer := o; taken := o && c; live := o && c |} :: stack.

(** The lines of the live branches, the conditional directives themselves
    removed; [None] when the sections do not nest properly. *)
Fixpoint select (cfg : config) (stack : list frame) (ls : list line_kind)
  : option (list line_kind) :=
  match ls with
  | [] => match stack with
          | [] => Some []
          | _ :: _ => None
          end
  | Directive (DIf e) :: r => select cfg (open_section stack (holds cfg e)) r
  | Directive (DIfdef m) :: r => select cfg (open_section stack (defined cfg m)) r
  | Directive (DIfndef m) :: r =>
      select cfg (open_section stack (negb (defined cfg m))) r
  | Directive (DElif e) :: r =>
      match stack with
      | [] => None
      | f :: up =>
          let c := outer f && negb (taken f) && holds cfg e in
          select cfg ({| outer := outer f; taken := taken f || c; live := c |} :: up) r
      end
  | Directive DElse :: r =>
      match stack with
      | [] => None
      | f :: up =>
          let c := outer f && negb (taken f) in
          select cfg ({| outer := outer f; taken := true; live := c |} :: up) r
      end
  | Directive DEndif :: r =>
      match stack with
      | [] => None
      | _ :: up => select cfg up r
      end
  | l :: r =>
      match select cfg stack r with
      | Some ls' => Some (if live_now stack then l :: ls' else ls')
      | None => None
      end
  end.

(** The inclusion directives a text exposes under a configuration. *)
Definition exposed (cfg : config) (text : string) : option (list directive) :=
  match select cfg [] (classified text) with
  | Some ls => Some (filter (fun d => match included_header d with
                                      | Some _ => true
                                      | None => false
                                      end)
                            (keep directive_of ls))
  | None => None
  end.

End Conditional.

Import Conditional.

(** ** Inclusion

    [#include], [#import] and [#pragma once] as the Clang family of
    preprocessors, the toolchain of the framework's platform, treats them:
    [#pragma once] marks the file it stands in; [#import] marks the file it
    names and enters it unless the file was entered before; [#include] enters
    the file it names unless the file is marked.  A header that does not
    resolve, a directive outside this fragment and inclusions nested deeper
    than the limit are errors that stop the processing. *)

Module Preprocessor.

Definition file_id : Type := string.

(** Where header names lead from a given including file, and what the files
    hold. *)
Record filesystem : Type := {
  resolve : file_id -> header_name -> option file_id;
  content : file_id -> string
}.

(** What the preprocessor remembers about files: the ones to be entered at
    most once (marked by [#pragma once] or brought in by [#import]) and the
    ones entered so far. *)
Record pp_state : Type := {
  once : list file_id;
  entered : list file_id
}.

Definition initial : pp_state := {| once := []; entered := [] |}.

Definition mem (f : file_id) (l : list file_id) : bool :=
  existsb (String.eqb f) l.

Definition add (f : file_id) (l : list file_id) : list file_id :=
  if mem f l then l else f :: l.

Definition mark_once (f : file_id) (st : pp_state) : pp_state :=
  {| once := add f (once st); entered := entered st |}.

Definition mark_entered (f : file_id) (st : pp_state) : pp_state :=
  {| once := once st; entered := add f (entered st) |}.

Inductive error : Type :=
| NotFound (h : header_name)       (* the header does not resolve *)
| TooDeep                          (* inclusions nested beyond the limit *)
| Unbalanced (f : file_id)         (* conditional sections do not nest *)
| Unsupported (text : string).     (* a directive outside the fragment *)

Inductive result (A : Type) : Type :=
| Ok (a : A)
| Err (e : error).
Arguments Ok {A} a.
Arguments Err {A} e.

Definition bind {A B : Type} (r : result A) (k : A -> result B) : result B :=
  match r with
  | Ok a => k a
  | Err e => Err e
  end.

Notation "x <- r ;; k" := (bind r (fun x => k))
  (at level 61, r at next level, right associativity).

(** The outcome of processing: the new state and the code lines put out. *)
Definition outcome : Type := (pp_state * list string)%type.

Definition succeeds (r : result outcome) : Prop := exists o, r = Ok o.

Section Lines.

Variable fs : filesystem.
(** How an included file is processed once it is entered. *)
Variable enter : file_id -> pp_state -> result outcome.
(** The file whose lines are being processed. *)
Variable self : file_id.

(** [#include]: skipped when the file is marked to be entered once. *)
Definition do_include (h : header_name) (st : pp_state) : result outcome :=
  match resolve fs self h with
  | None => Err (NotFound h)
  | Some f =>
      if mem f (once st) then Ok (st, [])
      else enter f (mark_entered f st)
  end.

(** [#import]: the file is marked to be entered once, and skipped when it was
    entered before. *)
Definition do_import (h : header_name) (st : pp_state) : result outcome :=
  match resolve fs self h with
  | None => Err (NotFound h)
  | Some f =>
      let st1 := mark_once f st in
      if mem f (entered st) then Ok (st1, [])
      else enter f (mark_entered f st1)
  end.

Definition exec_directive (d : directive) (st : pp_state) : result outcome :=
  match d with
  | DPragmaOnce => Ok (mark_once self st, [])
  | DInclude h => do_include h st
  | DImport h => do_import h st
  | DOther t => Err (Unsupported t)
  | DIf _ | DIfdef _ | DIfndef _ | DElif _ | DElse | DEndif => Err (Unbalanced self)
  end.

Definition exec_line (l : line_kind) (st : pp_state) : result outcome :=
  match l with
  | Blank | Comment _ => Ok (st, [])
  | Code t => Ok (st, [t])
  | Directive d => exec_directive d st
  end.

Fixpoint run (ls : list line_kind) (st : pp_state) : result outcome :=
  match ls with
  | [] => Ok (st, [])
  | l :: r =>
      a <- exec_line l st ;;
      b <- run r (fst a) ;;
      Ok (fst b, (snd a ++ snd b)%list)
  end.

(** Processing the text of the file [self] under a configuration. *)
Definition process_text (cfg : config) (text : string) (st : pp_state)
  : result outcome :=
  match select cfg [] (classified text) with
  | Some ls => run ls st
  | None => Err (Unbalanced self)
  end.

End Lines.

(** Processing a file of the file system; [depth] is the number of nested
    inclusions still allowed. *)
Fixpoint process_file (cfg : config) (fs : filesystem) (depth : nat)
  (f : file_id) (st : pp_state) : result outcome :=
  match depth with
  | O => Err TooDeep
  | S d => process_text fs (process_file cfg fs d) f cfg (content fs f) st
  end.

(** The bridging header processed as the file [self], with [depth] nested
    inclusions allowed below it. *)
Definition preprocess_bridge (cfg : config) (fs : filesystem) (depth : nat)
  (self : file_id) (st : pp_state) : result outcome :=
  process_text fs (process_file cfg fs depth) self cfg SwiftCxxBridge_hpp st.

(** A translation unit that consists of inclusion directives only. *)
Definition translation_unit (cfg : config) (fs : filesystem) (depth : nat)
  (main : file_id) (ds : list directive) : result outcome :=
  run fs (process_file cfg fs depth) main (map Directive ds) initial.

End Preprocessor.

Import Preprocessor.

(** ** What the interface description lists *)

(** The four include paths of the framework that the header is said to
    expose, in the order in which they are enumerated. *)
Definition exposed_paths : list string :=
  [ "Frame/InputImage.hpp";
    "Session/NativeSession.hpp";
    "NativeDocumentVerify.hpp";
    "License/NativeLicenseProvider.hpp" ].

(** The general-purpose tuple header of the language implementation. *)
Definition tuple_header : header_name := Angle "tuple".

(** The five inclusion directives: the tuple header, then the four framework
    headers. *)
Definition five_inclusions : list directive :=
  DInclude tuple_header :: map (fun p => DImport (Quoted p)) exposed_paths.

Definition five_headers : list header_name :=
  tuple_header :: map Quoted exposed_paths.


(** ** Configurations used in the examples *)

(** A text whose inclusions do depend on the configuration, for contrast. *)
Definition guarded_text : string :=
  "#ifdef __OBJC__" ++ LF ++ "#include <tuple>" ++ LF ++ "#endif".

Definition all_defined : config :=
  {| defined := fun _ => true; holds := fun _ => true |}.
Definition none_defined : config :=
  {| defined := fun _ => false; holds := fun _ => false |}.

(** ** The five inclusions, one after the other *)

Section Inclusions.

Variable fs : filesystem.
Variable enter : file_id -> pp_state -> result outcome.
Variable self : file_id.

(** The tuple header included, then the four framework headers imported, in
    that order, each in the state the one before it has left; the code lines
    they put out are concatenated. *)
Definition five_in_order (st : pp_state) : result outcome :=
  t <- do_include fs enter self (Angle "tuple") st ;;
  a <- do_import fs enter self (Quoted "Frame/InputImage.hpp") (fst t) ;;
  b <- do_import fs enter self (Quoted "Session/NativeSession.hpp") (fst a) ;;
  c <- do_import fs enter self (Quoted "NativeDocumentVerify.hpp") (fst b) ;;
  d <- do_import fs enter self (Quoted "License/NativeLicenseProvider.hpp") (fst c) ;;
  Ok (fst d, (snd t ++ snd a ++ snd b ++ snd c ++ snd d)%list).

End Inclusions.

(** A header resolves when the file system knows a file for its name. *)
Definition resolves (fs : filesystem) (self : file_id) (h : header_name) : Prop :=
  resolve fs self h <> None.

(** ** What the preprocessor remembers *)

(** The state [st'] knows every file the state [st] knows. *)
Definition grows (st st' : pp_state) : Prop :=
  (forall f, mem f (once st) = true -> mem f (once st') = true)
  /\ (forall f, mem f (entered st) = true -> mem f (entered st') = true).


(** A way of processing entered files that never forgets. *)
Definition monotone (enter : file_id -> pp_state -> result outcome) : Prop :=
  forall f st r, enter f st = Ok r -> grows st (fst r).

(** A file is settled in a state when, if it is marked to be entered once,
    it has been entered; so is every file at the start of a translation
    unit. *)
Definition settled (st : pp_state) (f : file_id) : Prop :=
  mem f (once st) = true -> mem f (entered st) = true.

(** ** A sample installation

    The framework's other headers are not part of the repository.  The
    examples below run the header against a small stand-in installation: a
    tuple header among the headers of the language implementation, and four
    framework headers, one of which includes another. *)

Module Sample.

Definition bridge_id : file_id := "PrivateHeaders/SwiftCxxBridge.hpp".

Definition sample_resolve (with_tuple : bool) (includer : file_id)
  (h : header_name) : option file_id :=
  match h with
  | Angle p =>
      if with_tuple && String.eqb p "tuple" then Some "usr/include/c++/v1/tuple"
      else None
  | Quoted p =>
      if existsb (String.eqb p) ("SwiftCxxBridge.hpp" :: exposed_paths)
      then Some ("PrivateHeaders/" ++ p)
      else None
  end.

Definition sample_content (f : file_id) : string :=
  if String.eqb f bridge_id then SwiftCxxBridge_hpp
  else if String.eqb f "usr/include/c++/v1/tuple" then
    "namespace std { template <class... T> class tuple; }"
  else if String.eqb f "PrivateHeaders/Frame/InputImage.hpp" then
    "#pragma once" ++ LF ++ "struct InputImage;"
  else if String.eqb f "PrivateHeaders/Session/NativeSession.hpp" then
    "#pragma once" ++ LF ++
    "#include " ++ DQ ++ "Frame/InputImage.hpp" ++ DQ ++ LF ++
    "struct NativeSession;"
  else if String.eqb f "PrivateHeaders/NativeDocumentVerify.hpp" then
    "struct NativeDocumentVerify;"
  else if String.eqb f "PrivateHeaders/License/NativeLicenseProvider.hpp" then
    "struct NativeLicenseProvider;"
  else "".

Definition sdk : filesystem :=
  {| resolve := sample_resolve true; content := sample_content |}.

(** The same installation, in a build whose language implementation has no
    tuple header. *)
Definition sdk_without_tuple : filesystem :=
  {| resolve := sample_resolve false; content := sample_content |}.

(** An installation whose five headers hold declarations only. *)
Definition plain_content (f : file_id) : string :=
  if String.eqb f "usr/include/c++/v1/tuple" then
    "namespace std { template <class... T> class tuple; }"
  else if String.eqb f "PrivateHeaders/Frame/InputImage.hpp" then
    "// the input image" ++ LF ++ "struct InputImage;"
  else if String.eqb f "PrivateHeaders/Session/NativeSession.hpp" then
    "struct NativeSession;" ++ LF
  else if String.eqb f "PrivateHeaders/NativeDocumentVerify.hpp" then
    "struct NativeDocumentVerify;"
  else if String.eqb f "PrivateHeaders/License/NativeLicenseProvider.hpp" then
    "struct NativeLicenseProvider;"
  else "".

Definition plain_sdk : filesystem :=
  {| resolve := sample_resolve true; content := plain_content |}.

(** The installation with a framework header that includes a header nobody
    ships. *)
Definition broken_content (f : file_id) : string :=
  if String.eqb f "PrivateHeaders/Session/NativeSession.hpp" then
    "#pragma once" ++ LF ++ "#include " ++ DQ ++ "Inputs.hpp" ++ DQ
  else sample_content f.

Definition broken_sdk : filesystem :=
  {| resolve := sample_resolve true; content := broken_content |}.

Definition sample_output : list string :=
  [ "namespace std { template <class... T> class tuple; }";
    "struct InputImage;";
    "struct NativeSession;";
    "struct NativeDocumentVerify;";
    "struct NativeLicenseProvider;" ].

End Sample.

Import Sample.

(** ** Further notions *)

(** The first of the five headers, in the order of the file, that does not
    resolve. *)
Definition first_unresolved (fs : filesystem) (self : file_id)
  : option header_name :=
  find (fun h => match resolve fs self h with
                 | None => true
                 | Some _ => false
                 end)
       five_headers.

(** The sample installation without the document verification header. *)
Definition partial_sdk : filesystem :=
  {| resolve := fun includer h =>
                  match h with
                  | Quoted p =>
                      if String.eqb p "NativeDocumentVerify.hpp" then None
                      else sample_resolve true includer h
                  | Angle _ => sample_resolve true includer h
                  end;
     content := sample_content |}.

(** ** Textual inclusion *)






(** ** The order in which files are entered *)

(** [add] puts a file that is new at the head of the list, so [entered]
    holds the files in the order in which they were first entered, the
    latest first.  The file [a] was entered before the file [b] when [b]
    stands in the list before a place from which on [a] stands. *)
Definition entered_before (st : pp_state) (a b : file_id) : Prop :=
  exists later earlier,
    entered st = (later ++ earlier)%list /\ In b later /\ In a earlier.

(** The state [st'] has entered the files of [st], and others after them. *)
Definition enters_after (st st' : pp_state) : Prop :=
  exists later, entered st' = (later ++ entered st)%list.

(** A way of processing entered files that keeps the order of entry. *)
Definition appending (enter : file_id -> pp_state -> result outcome) : Prop :=
  forall f st r, enter f st = Ok r -> enters_after st (fst r).

(** ** More sample installations *)




(** * Properties *)

Example classified_bridge :
  classified SwiftCxxBridge_hpp =
  [ Comment ""; Comment "  SwiftCxxBridge.hpp"; Comment "  DocumentVerification";
    Comment ""; Comment "  Created by DoDo on 11.09.2024.."; Comment "";
    Blank; Directive DPragmaOnce; Blank;
    Comment " missing in Inputs.hpp within runner, so until fixed package gets propagated, this include is needed here";
    Directive (DInclude (Angle "tuple")); Blank;
    Directive (DImport (Quoted "Frame/InputImage.hpp"));
    Directive (DImport (Quoted "Session/NativeSession.hpp"));
    Directive (DImport (Quoted "NativeDocumentVerify.hpp"));
    Directive (DImport (Quoted "License/NativeLicenseProvider.hpp")) ].
Proof. vm_compute. reflexivity. Qed.

Example bridge_bytes : String.length SwiftCxxBridge_hpp = 379.
Proof. vm_compute. reflexivity. Qed.

(** ** The lines of the header *)

Lemma source_lines_bridge :
  source_lines SwiftCxxBridge_hpp =
  [ "//"; "//  SwiftCxxBridge.hpp"; "//  DocumentVerification"; "//";
    "//  Created by DoDo on 11.09.2024.."; "//"; ""; "#pragma once"; "";
    "// missing in Inputs.hpp within runner, so until fixed package gets propagated, this include is needed here";
    "#include <tuple>"; "";
    "#import " ++ DQ ++ "Frame/InputImage.hpp" ++ DQ;
    "#import " ++ DQ ++ "Session/NativeSession.hpp" ++ DQ;
    "#import " ++ DQ ++ "NativeDocumentVerify.hpp" ++ DQ;
    "#import " ++ DQ ++ "License/NativeLicenseProvider.hpp" ++ DQ ].
Proof. vm_compute. reflexivity. Qed.

Lemma directives_bridge :
  directives SwiftCxxBridge_hpp = DPragmaOnce :: five_inclusions.
Proof. vm_compute. reflexivity. Qed.

Lemma included_headers_bridge :
  included_headers SwiftCxxBridge_hpp = five_headers.
Proof. vm_compute. reflexivity. Qed.

(** Membership in a list that computes to a literal one, split into its
    cases. *)
Ltac cases_of H :=
  vm_compute in H;
  repeat (destruct H as [H | H]; [ try subst | ]);
  try contradiction.

(** C1: the header brings in exactly the four listed framework paths and no
    other framework header; every header it brings in, the tuple header
    apart, is one of the four. *)
Theorem framework_headers_are_the_four :
  forall H : header_name,
    In H (included_headers SwiftCxxBridge_hpp) ->
    H <> tuple_header ->
    (exists p, H = Quoted p /\ In p exposed_paths)
    /\ List.length (framework_paths SwiftCxxBridge_hpp) = 4
    /\ (forall p, In p exposed_paths <-> In p (framework_paths SwiftCxxBridge_hpp)).
Proof.
  intros H HIn Hne.
  split; [ | split; [ reflexivity | intro p; vm_compute; tauto ] ].
  rewrite included_headers_bridge in HIn.
  unfold five_headers, exposed_paths in *.
  simpl in HIn.
  destruct HIn as [E | HIn]; [ symmetry in E; contradiction | ].
  repeat (destruct HIn as [E | HIn];
          [ subst H; eexists; split; [ reflexivity | simpl; tauto ] | ]).
  contradiction.
Qed.

Lemma framework_headers_are_the_four_witness :
  (exists p, Quoted "NativeDocumentVerify.hpp" = Quoted p /\ In p exposed_paths)
  /\ List.length (framework_paths SwiftCxxBridge_hpp) = 4
  /\ (forall p, In p exposed_paths <-> In p (framework_paths SwiftCxxBridge_hpp)).
Proof.
  apply (framework_headers_are_the_four (Quoted "NativeDocumentVerify.hpp")).
  - vm_compute. tauto.
  - discriminate.
Defined.

(** C2: every line of the header that is neither blank nor a comment is a
    preprocessor directive, and that directive is [#pragma once] or an
    inclusion: no line is code and no directive defines anything. *)
Theorem lines_are_directives :
  forall l : string,
    In l (source_lines SwiftCxxBridge_hpp) ->
    classify l <> Blank ->
    (forall t, classify l <> Comment t) ->
    exists d, classify l = Directive d /\
              (d = DPragmaOnce \/ exists h, d = DInclude h \/ d = DImport h).
Proof.
  intros l HIn HB HC.
  cases_of HIn;
    try (exfalso; apply HB; reflexivity);
    try (exfalso; eapply HC; vm_compute; reflexivity);
    eexists; (split; [ vm_compute; reflexivity | ]);
    try (left; reflexivity);
    right; eexists; ((left; reflexivity) || (right; reflexivity)).
Qed.

Lemma lines_are_directives_witness :
  exists d, classify "#pragma once" = Directive d /\
            (d = DPragmaOnce \/ exists h, d = DInclude h \/ d = DImport h).
Proof.
  apply (lines_are_directives "#pragma once").
  - vm_compute. tauto.
  - vm_compute. discriminate.
  - intro t. vm_compute. discriminate.
Defined.

(** C4: besides the four framework headers the file includes the standard
    tuple header, on line 11, under a comment (line 10) that says the include
    is needed because it is missing in Inputs.hpp within the runner. *)
Theorem tuple_is_included :
  In (DInclude tuple_header) (directives SwiftCxxBridge_hpp)
  /\ nth_error (source_lines SwiftCxxBridge_hpp) 10 = Some "#include <tuple>"
  /\ nth_error (classified SwiftCxxBridge_hpp) 10
     = Some (Directive (DInclude (Angle "tuple")))
  /\ nth_error (classified SwiftCxxBridge_hpp) 9
     = Some (Comment " missing in Inputs.hpp within runner, so until fixed package gets propagated, this include is needed here")
  /\ ~ In "tuple" (framework_paths SwiftCxxBridge_hpp)
  /\ included_headers SwiftCxxBridge_hpp = tuple_header :: map Quoted exposed_paths.
Proof.
  repeat split; try (vm_compute; reflexivity).
  - vm_compute. tauto.
  - vm_compute. intros H.
    repeat (destruct H as [H | H]; [ discriminate H | ]). exact H.
Qed.

(** C5: the header is one file of exactly sixteen lines: fifteen lines ended
    by a line feed and a last, non-empty line without one. *)
Theorem sixteen_lines :
  List.length (source_lines SwiftCxxBridge_hpp) = 16
  /\ count_LF SwiftCxxBridge_hpp = 15
  /\ last (source_lines SwiftCxxBridge_hpp) ""
     = "#import " ++ DQ ++ "License/NativeLicenseProvider.hpp" ++ DQ.
Proof. repeat split; vm_compute; reflexivity. Qed.

(** C6: the four framework headers are imported in the order in which they
    are enumerated: InputImage, NativeSession, NativeDocumentVerify,
    NativeLicenseProvider. *)
Theorem framework_import_order :
  framework_paths SwiftCxxBridge_hpp = exposed_paths
  /\ keep (fun d => match d with DImport (Quoted p) => Some p | _ => None end)
          (directives SwiftCxxBridge_hpp)
     = [ "Frame/InputImage.hpp"; "Session/NativeSession.hpp";
         "NativeDocumentVerify.hpp"; "License/NativeLicenseProvider.hpp" ].
Proof. split; vm_compute; reflexivity. Qed.

(** ** Conditional sections and the header *)

Lemma select_bridge (cfg : config) :
  select cfg [] (classified SwiftCxxBridge_hpp)
  = Some (classified SwiftCxxBridge_hpp).
Proof. vm_compute. reflexivity. Qed.

Example guarded_text_depends_on_config :
  exposed all_defined guarded_text = Some [DInclude (Angle "tuple")]
  /\ exposed none_defined guarded_text = Some [].
Proof. split; vm_compute; reflexivity. Qed.

(** C10: the header has no conditional directive, so it exposes the same
    five inclusion directives under any two build configurations. *)
Theorem same_inclusions_in_every_configuration :
  (forall d, In d (directives SwiftCxxBridge_hpp) -> is_conditional d = false)
  /\ (forall c1 c2 : config,
        exposed c1 SwiftCxxBridge_hpp = exposed c2 SwiftCxxBridge_hpp
        /\ exposed c1 SwiftCxxBridge_hpp = Some five_inclusions).
Proof.
  split.
  - intros d H. cases_of H; reflexivity.
  - intros c1 c2. unfold exposed. rewrite !select_bridge.
    split; vm_compute; reflexivity.
Qed.

(** ** Processing the header *)

Section Bridge.

Variable fs : filesystem.
Variable enter : file_id -> pp_state -> result outcome.
Variable self : file_id.

Lemma process_bridge_unfold (cfg : config) (st : pp_state) :
  process_text fs enter self cfg SwiftCxxBridge_hpp st
  = five_in_order fs enter self (mark_once self st).
Proof.
  unfold process_text. rewrite select_bridge, classified_bridge.
  unfold five_in_order.
  cbn [run exec_line exec_directive bind fst snd app].
  destruct (do_include fs enter self (Angle "tuple") (mark_once self st))
    as [[s0 o0] | e]; cbn [bind fst snd app]; [ | reflexivity ].
  destruct (do_import fs enter self (Quoted "Frame/InputImage.hpp") s0)
    as [[s1 o1] | e]; cbn [bind fst snd app]; [ | reflexivity ].
  destruct (do_import fs enter self (Quoted "Session/NativeSession.hpp") s1)
    as [[s2 o2] | e]; cbn [bind fst snd app]; [ | reflexivity ].
  destruct (do_import fs enter self (Quoted "NativeDocumentVerify.hpp") s2)
    as [[s3 o3] | e]; cbn [bind fst snd app]; [ | reflexivity ].
  destruct (do_import fs enter self (Quoted "License/NativeLicenseProvider.hpp") s3)
    as [[s4 o4] | e]; cbn [bind fst snd app]; [ | reflexivity ].
  rewrite !app_nil_r. reflexivity.
Qed.

End Bridge.

(** ** What the preprocessor remembers only grows *)

Section Growth.

Lemma mem_add_same (f : file_id) (l : list file_id) : mem f (add f l) = true.
Proof.
  unfold add. destruct (mem f l) eqn:E; [ exact E | ].
  unfold mem. simpl. rewrite String.eqb_refl. reflexivity.
Qed.

Lemma mem_add_keeps (f g : file_id) (l : list file_id) :
  mem g l = true -> mem g (add f l) = true.
Proof.
  intro H. unfold add. destruct (mem f l); [ exact H | ].
  unfold mem in *. simpl. rewrite H. apply orb_true_r.
Qed.

Lemma add_present (f : file_id) (l : list file_id) :
  mem f l = true -> add f l = l.
Proof. intro H. unfold add. rewrite H. reflexivity. Qed.

Lemma grows_refl (st : pp_state) : grows st st.
Proof. split; auto. Qed.

Lemma grows_trans (a b c : pp_state) : grows a b -> grows b c -> grows a c.
Proof. intros [H1 H2] [H3 H4]. split; auto. Qed.

Lemma grows_mark_once (f : file_id) (st : pp_state) : grows st (mark_once f st).
Proof. split; simpl; intros g H; [ apply mem_add_keeps | ]; exact H. Qed.

Lemma grows_mark_entered (f : file_id) (st : pp_state) :
  grows st (mark_entered f st).
Proof. split; simpl; intros g H; [ | apply mem_add_keeps ]; exact H. Qed.

Variable fs : filesystem.
Variable enter : file_id -> pp_state -> result outcome.
Variable self : file_id.
Hypothesis enter_monotone : monotone enter.

Lemma do_include_grows h st r :
  do_include fs enter self h st = Ok r -> grows st (fst r).
Proof.
  unfold do_include. destruct (resolve fs self h) as [f | ]; [ | discriminate ].
  destruct (mem f (once st)).
  - intros [= <-]. apply grows_refl.
  - intro H. apply enter_monotone in H.
    eapply grows_trans; [ apply grows_mark_entered | exact H ].
Qed.

Lemma do_import_grows h st r :
  do_import fs enter self h st = Ok r -> grows st (fst r).
Proof.
  unfold do_import. destruct (resolve fs self h) as [f | ]; [ | discriminate ].
  destruct (mem f (entered st)).
  - intros [= <-]. apply grows_mark_once.
  - intro H. apply enter_monotone in H.
    eapply grows_trans; [ apply grows_mark_once | ].
    eapply grows_trans; [ apply grows_mark_entered | exact H ].
Qed.

Lemma exec_line_grows l st r :
  exec_line fs enter self l st = Ok r -> grows st (fst r).
Proof.
  destruct l as [ | t | d | t ]; simpl;
    try (intros [= <-]; apply grows_refl).
  destruct d; simpl; try discriminate.
  - intros [= <-]. apply grows_mark_once.
  - apply do_include_grows.
  - apply do_import_grows.
Qed.

Lemma run_grows ls : forall st r,
  run fs enter self ls st = Ok r -> grows st (fst r).
Proof.
  induction ls as [ | l ls IH ]; intros st r; simpl.
  - intros [= <-]. apply grows_refl.
  - destruct (exec_line fs enter self l st) as [a | e] eqn:Ea; simpl;
      [ | discriminate ].
    destruct (run fs enter self ls (fst a)) as [b | e] eqn:Eb; simpl;
      [ | discriminate ].
    intros [= <-]. simpl.
    eapply grows_trans; [ eapply exec_line_grows; exact Ea | ].
    apply IH. exact Eb.
Qed.

Lemma process_text_grows cfg text st r :
  process_text fs enter self cfg text st = Ok r -> grows st (fst r).
Proof.
  unfold process_text.
  destruct (select cfg [] (classified text)); [ apply run_grows | discriminate ].
Qed.

Lemma five_in_order_grows st r :
  five_in_order fs enter self st = Ok r -> grows st (fst r).
Proof.
  unfold five_in_order.
  destruct (do_include fs enter self (Angle "tuple") st) as [t | e] eqn:E0;
    cbn [bind]; [ | discriminate ].
  destruct (do_import fs enter self (Quoted "Frame/InputImage.hpp") (fst t))
    as [a | e] eqn:E1; cbn [bind]; [ | discriminate ].
  destruct (do_import fs enter self (Quoted "Session/NativeSession.hpp") (fst a))
    as [b | e] eqn:E2; cbn [bind]; [ | discriminate ].
  destruct (do_import fs enter self (Quoted "NativeDocumentVerify.hpp") (fst b))
    as [c | e] eqn:E3; cbn [bind]; [ | discriminate ].
  destruct (do_import fs enter self (Quoted "License/NativeLicenseProvider.hpp") (fst c))
    as [d | e] eqn:E4; cbn [bind]; [ | discriminate ].
  intros [= <-]. cbn [fst].
  apply do_include_grows in E0.
  apply do_import_grows in E1, E2, E3, E4.
  repeat (eapply grows_trans; [ eassumption | ]). apply grows_refl.
Qed.

(** After the header has been processed it is marked to be entered once. *)
Lemma bridge_marks_itself cfg st r :
  process_text fs enter self cfg SwiftCxxBridge_hpp st = Ok r ->
  mem self (once (fst r)) = true.
Proof.
  rewrite process_bridge_unfold. intro H.
  apply five_in_order_grows in H. apply H. simpl. apply mem_add_same.
Qed.

End Growth.

Lemma process_file_monotone cfg fs depth : monotone (process_file cfg fs depth).
Proof.
  induction depth as [ | d IH ]; intros f st r; simpl.
  - discriminate.
  - apply process_text_grows. exact IH.
Qed.

Example bridge_on_sample :
  exists st, preprocess_bridge all_defined sdk 2 bridge_id initial
             = Ok (st, sample_output)
             /\ mem bridge_id (once st) = true.
Proof. eexists. split; vm_compute; reflexivity. Qed.

Example bridge_without_tuple :
  preprocess_bridge all_defined sdk_without_tuple 2 bridge_id initial
  = Err (NotFound (Angle "tuple")).
Proof. vm_compute. reflexivity. Qed.

Example bridge_included_twice :
  exists st,
    translation_unit all_defined sdk 3 "main.mm"
      [DImport (Quoted "SwiftCxxBridge.hpp"); DImport (Quoted "SwiftCxxBridge.hpp")]
    = Ok (st, sample_output).
Proof. eexists. vm_compute. reflexivity. Qed.

(** ** Statements about processing the header *)

Lemma do_include_resolves fs enter self h st :
  succeeds (do_include fs enter self h st) -> resolves fs self h.
Proof.
  unfold do_include, resolves. intros [o H] E. rewrite E in H. discriminate.
Qed.

Lemma do_import_resolves fs enter self h st :
  succeeds (do_import fs enter self h st) -> resolves fs self h.
Proof.
  unfold do_import, resolves. intros [o H] E. rewrite E in H. discriminate.
Qed.

(** An inclusion succeeds when its header resolves and the file it leads to
    is processed without error. *)
Lemma do_include_succeeds fs enter self h st :
  resolves fs self h ->
  (forall f st', resolve fs self h = Some f -> succeeds (enter f st')) ->
  succeeds (do_include fs enter self h st).
Proof.
  unfold do_include, resolves. intros R P.
  destruct (resolve fs self h) as [f | ]; [ | contradiction ].
  destruct (mem f (once st)); [ eexists; reflexivity | ].
  apply P. reflexivity.
Qed.

Lemma do_import_succeeds fs enter self h st :
  resolves fs self h ->
  (forall f st', resolve fs self h = Some f -> succeeds (enter f st')) ->
  succeeds (do_import fs enter self h st).
Proof.
  unfold do_import, resolves. intros R P.
  destruct (resolve fs self h) as [f | ]; [ | contradiction ].
  destruct (mem f (entered st)); [ eexists; reflexivity | ].
  apply P. reflexivity.
Qed.

(** Success of the five inclusions, step by step. *)
Lemma five_in_order_succeeds_inv fs enter self st :
  succeeds (five_in_order fs enter self st) ->
  exists t a b c,
    do_include fs enter self (Angle "tuple") st = Ok t
    /\ do_import fs enter self (Quoted "Frame/InputImage.hpp") (fst t) = Ok a
    /\ do_import fs enter self (Quoted "Session/NativeSession.hpp") (fst a) = Ok b
    /\ do_import fs enter self (Quoted "NativeDocumentVerify.hpp") (fst b) = Ok c
    /\ succeeds (do_import fs enter self
                   (Quoted "License/NativeLicenseProvider.hpp") (fst c)).
Proof.
  unfold five_in_order. intros [o H].
  destruct (do_include fs enter self (Angle "tuple") st) as [t | e] eqn:E0;
    cbn [bind] in H; [ | discriminate ].
  destruct (do_import fs enter self (Quoted "Frame/InputImage.hpp") (fst t))
    as [a | e] eqn:E1; cbn [bind] in H; [ | discriminate ].
  destruct (do_import fs enter self (Quoted "Session/NativeSession.hpp") (fst a))
    as [b | e] eqn:E2; cbn [bind] in H; [ | discriminate ].
  destruct (do_import fs enter self (Quoted "NativeDocumentVerify.hpp") (fst b))
    as [c | e] eqn:E3; cbn [bind] in H; [ | discriminate ].
  destruct (do_import fs enter self (Quoted "License/NativeLicenseProvider.hpp") (fst c))
    as [d | e] eqn:E4; cbn [bind] in H; [ | discriminate ].
  exists t, a, b, c. do 4 (split; [ first [ assumption | reflexivity ] | ]).
  exists d. exact E4.
Qed.

(** C7, as the code has it: processing the header succeeds only when the
    tuple header and the four framework headers all resolve; and when the
    files they lead to are processed without error, it succeeds exactly when
    all five resolve. *)
Theorem bridge_succeeds_iff_five_resolve :
  forall cfg fs depth self st,
    (succeeds (preprocess_bridge cfg fs depth self st) ->
     Forall (resolves fs self) five_headers)
    /\ ((forall h f st', In h five_headers -> resolve fs self h = Some f ->
                         succeeds (process_file cfg fs depth f st')) ->
        (succeeds (preprocess_bridge cfg fs depth self st)
         <-> Forall (resolves fs self) five_headers)).
Proof.
  intros cfg fs depth self st.
  assert (Only : succeeds (preprocess_bridge cfg fs depth self st) ->
                 Forall (resolves fs self) five_headers).
  { unfold preprocess_bridge. rewrite process_bridge_unfold.
    intro S. apply five_in_order_succeeds_inv in S.
    destruct S as (t & a & b & c & E0 & E1 & E2 & E3 & S4).
    repeat constructor.
    - eapply do_include_resolves. eexists; exact E0.
    - eapply do_import_resolves. eexists; exact E1.
    - eapply do_import_resolves. eexists; exact E2.
    - eapply do_import_resolves. eexists; exact E3.
    - eapply do_import_resolves. exact S4. }
  split; [ exact Only | ].
  intro P. split; [ exact Only | ].
  unfold preprocess_bridge. rewrite process_bridge_unfold.
  intro R. unfold five_headers, exposed_paths in R. simpl in R.
  inversion_clear R as [ | ? ? R0 R']. inversion_clear R' as [ | ? ? R1 R].
  inversion_clear R as [ | ? ? R2 R']. inversion_clear R' as [ | ? ? R3 R].
  inversion_clear R as [ | ? ? R4 _].
  assert (I : forall h st0, In h five_headers -> resolves fs self h ->
              (succeeds (do_include fs (process_file cfg fs depth) self h st0)
               /\ succeeds (do_import fs (process_file cfg fs depth) self h st0))).
  { intros h st0 HIn Hr. split;
      [ apply do_include_succeeds | apply do_import_succeeds ];
      try exact Hr; intros f st' E; eapply P; eauto. }
  unfold five_in_order.
  destruct (I (Angle "tuple") (mark_once self st)) as [[t ->] _];
    [ vm_compute; tauto | exact R0 | ]. cbn [bind].
  destruct (I (Quoted "Frame/InputImage.hpp") (fst t)) as [_ [a ->]];
    [ vm_compute; tauto | exact R1 | ]. cbn [bind].
  destruct (I (Quoted "Session/NativeSession.hpp") (fst a)) as [_ [b ->]];
    [ vm_compute; tauto | exact R2 | ]. cbn [bind].
  destruct (I (Quoted "NativeDocumentVerify.hpp") (fst b)) as [_ [c ->]];
    [ vm_compute; tauto | exact R3 | ]. cbn [bind].
  destruct (I (Quoted "License/NativeLicenseProvider.hpp") (fst c)) as [_ [d ->]];
    [ vm_compute; tauto | exact R4 | ]. cbn [bind].
  eexists; reflexivity.
Qed.

Lemma sample_headers_process (with_tuple : bool) :
  forall h f st',
    In h five_headers ->
    sample_resolve with_tuple bridge_id h = Some f ->
    succeeds (process_file all_defined sdk 2 f st').
Proof.
  intros h f st' HIn E.
  unfold five_headers, exposed_paths in HIn. simpl in HIn.
  destruct with_tuple;
    repeat (destruct HIn as [<- | HIn];
            [ vm_compute in E; try discriminate E; injection E as <- | ]);
    try contradiction;
    cbv - [mem add];
    repeat match goal with
           | |- context [if mem ?f ?l then _ else _] => destruct (mem f l)
           end;
    eexists; reflexivity.
Qed.

Lemma bridge_succeeds_iff_five_resolve_witness :
  succeeds (preprocess_bridge all_defined sdk 2 bridge_id initial)
  <-> Forall (resolves sdk bridge_id) five_headers.
Proof.
  apply (proj2 (bridge_succeeds_iff_five_resolve all_defined sdk 2 bridge_id initial)).
  exact (sample_headers_process true).
Defined.

(** C7, as stated, fails: in an installation where the four framework
    headers resolve, and are processed without error, but the tuple header
    does not resolve, processing the header stops at line 11. *)
Lemma four_resolving_headers_do_not_suffice :
  Forall (resolves sdk_without_tuple bridge_id) (map Quoted exposed_paths)
  /\ preprocess_bridge all_defined sdk_without_tuple 2 bridge_id initial
     = Err (NotFound (Angle "tuple"))
  /\ ~ (succeeds (preprocess_bridge all_defined sdk_without_tuple 2 bridge_id initial)
        <-> Forall (resolves sdk_without_tuple bridge_id) (map Quoted exposed_paths)).
Proof.
  assert (R : Forall (resolves sdk_without_tuple bridge_id) (map Quoted exposed_paths)).
  { repeat constructor; vm_compute; discriminate. }
  assert (E : preprocess_bridge all_defined sdk_without_tuple 2 bridge_id initial
              = Err (NotFound (Angle "tuple"))).
  { vm_compute. reflexivity. }
  split; [ exact R | split; [ exact E | ] ].
  intros [_ H]. destruct (H R) as [o Ho]. rewrite E in Ho. discriminate.
Qed.

(** All five headers resolve, and processing still fails, when one of the
    files they lead to cannot be processed. *)
Example bridge_on_broken_sample :
  Forall (resolves broken_sdk bridge_id) five_headers
  /\ preprocess_bridge all_defined broken_sdk 2 bridge_id initial
     = Err (NotFound (Quoted "Inputs.hpp")).
Proof.
  split; [ repeat constructor; vm_compute; discriminate | ].
  vm_compute. reflexivity.
Qed.

(** ** Headers without directives

    When the five headers lead to five different files that hold no
    directive, the header put through the preprocessor at the start of a
    translation unit is the code of the tuple header followed by the code of
    the four framework headers. *)

Section Plain.

Variable cfg : config.
Variable fs : filesystem.

Lemma select_plain ls :
  forallb no_directive ls = true -> select cfg [] ls = Some ls.
Proof.
  induction ls as [ | l ls IH ]; simpl; [ reflexivity | ].
  intro H. apply andb_prop in H. destruct H as [Hl Hls].
  destruct l; try discriminate Hl; rewrite (IH Hls); reflexivity.
Qed.

Lemma run_plain enter self ls st :
  forallb no_directive ls = true ->
  run fs enter self ls st = Ok (st, keep code_of ls).
Proof.
  induction ls as [ | l ls IH ]; simpl; [ reflexivity | ].
  intro H. apply andb_prop in H. destruct H as [Hl Hls].
  destruct l; try discriminate Hl; simpl; rewrite (IH Hls); reflexivity.
Qed.

Lemma process_file_plain d f st :
  plain (content fs f) = true ->
  process_file cfg fs (S d) f st = Ok (st, code_lines (content fs f)).
Proof.
  intro H. simpl. unfold process_text, plain in *.
  rewrite (select_plain _ H). apply run_plain. exact H.
Qed.

Lemma mem_cons (g f : file_id) (l : list file_id) :
  mem g (f :: l) = String.eqb g f || mem g l.
Proof. reflexivity. Qed.

Lemma bridge_output_of_plain_headers d self f0 f1 f2 f3 f4 :
  resolve fs self (Angle "tuple") = Some f0 ->
  resolve fs self (Quoted "Frame/InputImage.hpp") = Some f1 ->
  resolve fs self (Quoted "Session/NativeSession.hpp") = Some f2 ->
  resolve fs self (Quoted "NativeDocumentVerify.hpp") = Some f3 ->
  resolve fs self (Quoted "License/NativeLicenseProvider.hpp") = Some f4 ->
  NoDup [self; f0; f1; f2; f3; f4] ->
  Forall (fun f => plain (content fs f) = true) [f0; f1; f2; f3; f4] ->
  preprocess_bridge cfg fs (S d) self initial
  = Ok ({| once := [f4; f3; f2; f1; self]; entered := [f4; f3; f2; f1; f0] |},
        (code_lines (content fs f0) ++ code_lines (content fs f1)
         ++ code_lines (content fs f2) ++ code_lines (content fs f3)
         ++ code_lines (content fs f4))%list).
Proof.
  intros R0 R1 R2 R3 R4 ND P.
  assert (N : forall a b, a <> b -> String.eqb a b = false)
    by (intros a b; apply String.eqb_neq).
  repeat match goal with
         | H : NoDup (_ :: _) |- _ => inversion_clear H
         end.
  repeat match goal with
         | H : ~ In _ (_ :: _) |- _ => simpl in H
         | H : ~ (_ \/ _) |- _ => apply Decidable.not_or in H; destruct H
         end.
  repeat match goal with
         | H : Forall _ (_ :: _) |- _ => inversion_clear H
         end.
  unfold preprocess_bridge. rewrite process_bridge_unfold.
  unfold five_in_order, do_include, do_import.
  rewrite R0. unfold initial, mark_once, mark_entered, add; simpl once; simpl entered.
  cbn [mem existsb orb].
  change (existsb (String.eqb ?g) ?l) with (mem g l).
  repeat (rewrite ?mem_cons; cbn [mem existsb orb]).
  rewrite (N f0 self) by congruence. cbn [orb].
  rewrite process_file_plain by assumption. cbn [bind fst snd].
  rewrite R1. unfold mark_once, mark_entered, add; simpl once; simpl entered.
  repeat (rewrite ?mem_cons; cbn [mem existsb orb]).
  rewrite (N f1 self), (N f1 f0) by congruence. cbn [orb].
  rewrite process_file_plain by assumption. cbn [bind fst snd].
  rewrite R2. unfold mark_once, mark_entered, add; simpl once; simpl entered.
  repeat (rewrite ?mem_cons; cbn [mem existsb orb]).
  rewrite (N f2 self), (N f2 f0), (N f2 f1) by congruence. cbn [orb].
  rewrite process_file_plain by assumption. cbn [bind fst snd].
  rewrite R3. unfold mark_once, mark_entered, add; simpl once; simpl entered.
  repeat (rewrite ?mem_cons; cbn [mem existsb orb]).
  rewrite (N f3 self), (N f3 f0), (N f3 f1), (N f3 f2) by congruence. cbn [orb].
  rewrite process_file_plain by assumption. cbn [bind fst snd].
  rewrite R4. unfold mark_once, mark_entered, add; simpl once; simpl entered.
  repeat (rewrite ?mem_cons; cbn [mem existsb orb]).
  rewrite (N f4 self), (N f4 f0), (N f4 f1), (N f4 f2), (N f4 f3) by congruence.
  cbn [orb].
  rewrite process_file_plain by assumption. cbn [bind fst snd].
  reflexivity.
Qed.

End Plain.

Example bridge_on_plain_sample :
  exists st, preprocess_bridge none_defined plain_sdk 1 bridge_id initial
             = Ok (st, sample_output).
Proof.
  eexists.
  rewrite (bridge_output_of_plain_headers none_defined plain_sdk 0 bridge_id
             "usr/include/c++/v1/tuple"
             "PrivateHeaders/Frame/InputImage.hpp"
             "PrivateHeaders/Session/NativeSession.hpp"
             "PrivateHeaders/NativeDocumentVerify.hpp"
             "PrivateHeaders/License/NativeLicenseProvider.hpp");
    try reflexivity.
  - repeat constructor; simpl; intuition discriminate.
  - repeat constructor.
Qed.

(** ** Including the header twice *)

Lemma mark_once_present (f : file_id) (st : pp_state) :
  mem f (once st) = true -> mark_once f st = st.
Proof.
  intro H. destruct st as [o e]. unfold mark_once. simpl in *.
  rewrite add_present by exact H. reflexivity.
Qed.

Lemma bridge_entered cfg fs depth self st r :
  content fs self = SwiftCxxBridge_hpp ->
  mem self (entered st) = true ->
  process_file cfg fs depth self st = Ok r ->
  mem self (once (fst r)) = true /\ mem self (entered (fst r)) = true.
Proof.
  intros C M H. destruct depth as [ | d ]; simpl in H; [ discriminate | ].
  rewrite C in H. split.
  - eapply bridge_marks_itself; [ apply process_file_monotone | exact H ].
  - apply process_text_grows in H; [ | apply process_file_monotone ].
    apply H. exact M.
Qed.

(** The state after one inclusion of the header knows the header as a file
    entered, and to be entered once. *)
Lemma after_first_inclusion cfg fs depth includer self h d st r :
  resolve fs includer h = Some self ->
  content fs self = SwiftCxxBridge_hpp ->
  settled st self ->
  included_header d = Some h ->
  exec_directive fs (process_file cfg fs depth) includer d st = Ok r ->
  mem self (once (fst r)) = true /\ mem self (entered (fst r)) = true.
Proof.
  intros R C W D H.
  destruct d; simpl in D; try discriminate; injection D as ->; simpl in H.
  - unfold do_include in H. rewrite R in H.
    destruct (mem self (once st)) eqn:M.
    + injection H as <-. simpl. split; [ exact M | apply W; exact M ].
    + eapply bridge_entered; [ exact C | | exact H ].
      simpl. apply mem_add_same.
  - unfold do_import in H. rewrite R in H.
    destruct (mem self (entered st)) eqn:M.
    + injection H as <-. simpl. split; [ apply mem_add_same | exact M ].
    + eapply bridge_entered; [ exact C | | exact H ].
      simpl. apply mem_add_same.
Qed.

(** C8: the header's first directive is [#pragma once], and once the header
    has been included (by [#include] or by [#import]), including it again in
    the same translation unit puts out nothing and changes nothing. *)
Theorem second_inclusion_is_empty :
  forall cfg fs depth includer self h d1 d2 st st1 out,
    resolve fs includer h = Some self ->
    content fs self = SwiftCxxBridge_hpp ->
    settled st self ->
    included_header d1 = Some h ->
    included_header d2 = Some h ->
    exec_directive fs (process_file cfg fs depth) includer d1 st = Ok (st1, out) ->
    exec_directive fs (process_file cfg fs depth) includer d2 st1 = Ok (st1, [])
    /\ hd_error (directives SwiftCxxBridge_hpp) = Some DPragmaOnce.
Proof.
  intros cfg fs depth includer self h d1 d2 st st1 out R C W D1 D2 H.
  split; [ | reflexivity ].
  destruct (after_first_inclusion cfg fs depth includer self h d1 st (st1, out)
              R C W D1 H) as [A B]. simpl in A, B.
  destruct d2; simpl in D2; try discriminate; injection D2 as ->; simpl.
  - unfold do_include. rewrite R, A. reflexivity.
  - unfold do_import. rewrite R, B, (mark_once_present self st1 A). reflexivity.
Qed.

Lemma second_inclusion_is_empty_witness :
  exists st1,
    exec_directive sdk (process_file all_defined sdk 3) "main.mm"
      (DImport (Quoted "SwiftCxxBridge.hpp")) initial = Ok (st1, sample_output)
    /\ exec_directive sdk (process_file all_defined sdk 3) "main.mm"
         (DInclude (Quoted "SwiftCxxBridge.hpp")) st1 = Ok (st1, [])
    /\ hd_error (directives SwiftCxxBridge_hpp) = Some DPragmaOnce.
Proof.
  eexists. split; [ vm_compute; reflexivity | ].
  apply (second_inclusion_is_empty all_defined sdk 3 "main.mm" bridge_id
           (Quoted "SwiftCxxBridge.hpp")
           (DImport (Quoted "SwiftCxxBridge.hpp"))
           (DInclude (Quoted "SwiftCxxBridge.hpp"))
           initial _ sample_output).
  - reflexivity.
  - reflexivity.
  - intro M. discriminate M.
  - reflexivity.
  - reflexivity.
  - vm_compute. reflexivity.
Defined.

(** * Further properties *)

(** ** The framework headers after the header *)

Lemma five_in_order_inv fs enter self st r :
  five_in_order fs enter self st = Ok r ->
  exists t a b c d,
    do_include fs enter self (Angle "tuple") st = Ok t
    /\ do_import fs enter self (Quoted "Frame/InputImage.hpp") (fst t) = Ok a
    /\ do_import fs enter self (Quoted "Session/NativeSession.hpp") (fst a) = Ok b
    /\ do_import fs enter self (Quoted "NativeDocumentVerify.hpp") (fst b) = Ok c
    /\ do_import fs enter self (Quoted "License/NativeLicenseProvider.hpp") (fst c)
       = Ok d
    /\ fst r = fst d.
Proof.
  unfold five_in_order. intro H.
  destruct (do_include fs enter self (Angle "tuple") st) as [t | e] eqn:E0;
    cbn [bind] in H; [ | discriminate ].
  destruct (do_import fs enter self (Quoted "Frame/InputImage.hpp") (fst t))
    as [a | e] eqn:E1; cbn [bind] in H; [ | discriminate ].
  destruct (do_import fs enter self (Quoted "Session/NativeSession.hpp") (fst a))
    as [b | e] eqn:E2; cbn [bind] in H; [ | discriminate ].
  destruct (do_import fs enter self (Quoted "NativeDocumentVerify.hpp") (fst b))
    as [c | e] eqn:E3; cbn [bind] in H; [ | discriminate ].
  destruct (do_import fs enter self (Quoted "License/NativeLicenseProvider.hpp") (fst c))
    as [d | e] eqn:E4; cbn [bind] in H; [ | discriminate ].
  exists t, a, b, c, d. injection H as <-.
  do 5 (split; [ first [ assumption | reflexivity ] | ]). reflexivity.
Qed.

(** An import leaves the file it names marked and entered. *)
Lemma do_import_marks fs enter self h st a f :
  monotone enter ->
  resolve fs self h = Some f ->
  do_import fs enter self h st = Ok a ->
  mem f (once (fst a)) = true /\ mem f (entered (fst a)) = true.
Proof.
  intros M R H. unfold do_import in H. rewrite R in H.
  destruct (mem f (entered st)) eqn:E.
  - injection H as <-. simpl. split; [ apply mem_add_same | exact E ].
  - apply M in H. destruct H as [Ho He]. split.
    + apply Ho. simpl. apply mem_add_same.
    + apply He. simpl. apply mem_add_same.
Qed.

(** A file that is marked and entered is skipped by either directive. *)
Lemma known_file_is_skipped fs later includer h d f st :
  mem f (once st) = true ->
  mem f (entered st) = true ->
  resolve fs includer h = Some f ->
  included_header d = Some h ->
  exec_directive fs later includer d st = Ok (st, []).
Proof.
  intros A B R D.
  destruct d; simpl in D; try discriminate; injection D as ->; simpl.
  - unfold do_include. rewrite R, A. reflexivity.
  - unfold do_import. rewrite R, B, (mark_once_present f st A). reflexivity.
Qed.

(** X1: once the header has been processed, each of the four framework
    headers it imports is marked and entered: a later [#include] or [#import]
    that leads to the same file, from any file of the translation unit, puts
    out nothing and leaves the state as it is. *)
Theorem framework_headers_guarded_after_bridge :
  forall cfg fs depth self st r p f later includer h d,
    preprocess_bridge cfg fs depth self st = Ok r ->
    In p exposed_paths ->
    resolve fs self (Quoted p) = Some f ->
    resolve fs includer h = Some f ->
    included_header d = Some h ->
    exec_directive fs later includer d (fst r) = Ok (fst r, []).
Proof.
  intros cfg fs depth self st r p f later includer h d H Hp Rp Rh D.
  unfold preprocess_bridge in H. rewrite process_bridge_unfold in H.
  apply five_in_order_inv in H.
  destruct H as (t & a & b & c & e & E0 & E1 & E2 & E3 & E4 & ->).
  pose proof (process_file_monotone cfg fs depth) as M.
  pose proof (do_import_grows fs _ self M _ _ _ E2) as G2.
  pose proof (do_import_grows fs _ self M _ _ _ E3) as G3.
  pose proof (do_import_grows fs _ self M _ _ _ E4) as G4.
  assert (K : mem f (once (fst e)) = true /\ mem f (entered (fst e)) = true).
  { unfold exposed_paths in Hp. simpl in Hp.
    destruct Hp as [<- | [<- | [<- | [<- | []]]]].
    - destruct (do_import_marks _ _ _ _ _ _ _ M Rp E1) as [A B].
      split; [ apply G4, G3, G2, A | apply G4, G3, G2, B ].
    - destruct (do_import_marks _ _ _ _ _ _ _ M Rp E2) as [A B].
      split; [ apply G4, G3, A | apply G4, G3, B ].
    - destruct (do_import_marks _ _ _ _ _ _ _ M Rp E3) as [A B].
      split; [ apply G4, A | apply G4, B ].
    - exact (do_import_marks _ _ _ _ _ _ _ M Rp E4). }
  destruct K as [A B].
  eapply known_file_is_skipped; eassumption.
Qed.

Lemma framework_headers_guarded_after_bridge_witness :
  exists r,
    preprocess_bridge all_defined sdk 2 bridge_id initial = Ok r
    /\ exec_directive sdk (process_file all_defined sdk 2) "main.mm"
         (DInclude (Quoted "Session/NativeSession.hpp")) (fst r)
       = Ok (fst r, []).
Proof.
  eexists. split; [ vm_compute; reflexivity | ].
  apply (framework_headers_guarded_after_bridge all_defined sdk 2 bridge_id
           initial _ "Session/NativeSession.hpp"
           "PrivateHeaders/Session/NativeSession.hpp"
           (process_file all_defined sdk 2) "main.mm"
           (Quoted "Session/NativeSession.hpp")
           (DInclude (Quoted "Session/NativeSession.hpp"))).
  - vm_compute. reflexivity.
  - vm_compute. tauto.
  - reflexivity.
  - reflexivity.
  - reflexivity.
Defined.

(** The tuple header is brought in by [#include]: the header itself does not
    guard it, and a later [#include <tuple>] enters it again when the tuple
    header carries no guard of its own. *)
Example tuple_is_not_guarded_by_bridge :
  exists r,
    preprocess_bridge all_defined plain_sdk 1 bridge_id initial = Ok r
    /\ exec_directive plain_sdk (process_file all_defined plain_sdk 1) "main.mm"
         (DInclude (Angle "tuple")) (fst r)
       = Ok (fst r, ["namespace std { template <class... T> class tuple; }"]).
Proof. eexists. split; vm_compute; reflexivity. Qed.

(** ** The error of a missing header *)

Lemma partial_headers_process :
  forall h f st',
    In h five_headers ->
    resolve partial_sdk bridge_id h = Some f ->
    succeeds (process_file all_defined partial_sdk 2 f st').
Proof.
  intros h f st' HIn E.
  unfold five_headers, exposed_paths in HIn. simpl in HIn.
  repeat (destruct HIn as [<- | HIn];
          [ vm_compute in E; try discriminate E; injection E as <- | ]);
    try contradiction;
    cbv - [mem add];
    repeat match goal with
           | |- context [if mem ?f ?l then _ else _] => destruct (mem f l)
           end;
    eexists; reflexivity.
Qed.

(** X2: when the files the resolving headers lead to are processed without
    error, processing the header stops at the first of its five headers, in
    the order of the file, that does not resolve, and the error names that
    header. *)
Theorem first_missing_header_is_reported :
  forall cfg fs depth self st h,
    (forall h' f st', In h' five_headers -> resolve fs self h' = Some f ->
                      succeeds (process_file cfg fs depth f st')) ->
    first_unresolved fs self = Some h ->
    preprocess_bridge cfg fs depth self st = Err (NotFound h).
Proof.
  intros cfg fs depth self st h P F.
  unfold preprocess_bridge. rewrite process_bridge_unfold.
  assert (I : forall h' st0, In h' five_headers -> resolves fs self h' ->
              (succeeds (do_include fs (process_file cfg fs depth) self h' st0)
               /\ succeeds (do_import fs (process_file cfg fs depth) self h' st0))).
  { intros h' st0 HIn Hr. split;
      [ apply do_include_succeeds | apply do_import_succeeds ];
      try exact Hr; intros f st' E; eapply P; eauto. }
  assert (N : forall h' st0, resolve fs self h' = None ->
              do_include fs (process_file cfg fs depth) self h' st0
              = Err (NotFound h')
              /\ do_import fs (process_file cfg fs depth) self h' st0
                 = Err (NotFound h')).
  { intros h' st0 E. unfold do_include, do_import. rewrite E. split; reflexivity. }
  unfold first_unresolved, five_headers, tuple_header, exposed_paths in F.
  cbn [map find] in F.
  unfold five_in_order.
  destruct (resolve fs self (Angle "tuple")) eqn:R0;
    [ | injection F as <-; rewrite (proj1 (N _ _ R0)); reflexivity ].
  destruct (I (Angle "tuple") (mark_once self st)) as [[t ->] _];
    [ vm_compute; tauto | unfold resolves; congruence | ]. cbn [bind].
  destruct (resolve fs self (Quoted "Frame/InputImage.hpp")) eqn:R1;
    [ | injection F as <-; rewrite (proj2 (N _ _ R1)); reflexivity ].
  destruct (I (Quoted "Frame/InputImage.hpp") (fst t)) as [_ [a ->]];
    [ vm_compute; tauto | unfold resolves; congruence | ]. cbn [bind].
  destruct (resolve fs self (Quoted "Session/NativeSession.hpp")) eqn:R2;
    [ | injection F as <-; rewrite (proj2 (N _ _ R2)); reflexivity ].
  destruct (I (Quoted "Session/NativeSession.hpp") (fst a)) as [_ [b ->]];
    [ vm_compute; tauto | unfold resolves; congruence | ]. cbn [bind].
  destruct (resolve fs self (Quoted "NativeDocumentVerify.hpp")) eqn:R3;
    [ | injection F as <-; rewrite (proj2 (N _ _ R3)); reflexivity ].
  destruct (I (Quoted "NativeDocumentVerify.hpp") (fst b)) as [_ [c ->]];
    [ vm_compute; tauto | unfold resolves; congruence | ]. cbn [bind].
  destruct (resolve fs self (Quoted "License/NativeLicenseProvider.hpp")) eqn:R4;
    [ discriminate F | ].
  injection F as <-. rewrite (proj2 (N _ _ R4)). reflexivity.
Qed.

Lemma first_missing_header_is_reported_witness :
  preprocess_bridge all_defined partial_sdk 2 bridge_id initial
  = Err (NotFound (Quoted "NativeDocumentVerify.hpp")).
Proof.
  apply (first_missing_header_is_reported all_defined partial_sdk 2 bridge_id
           initial (Quoted "NativeDocumentVerify.hpp")).
  - exact partial_headers_process.
  - vm_compute. reflexivity.
Defined.

(** ** The header and the texts of its headers *)


Section Leaves.

Variable cfg : config.
Variable fs : filesystem.







End Leaves.




(** ** The tuple header comes first *)

Lemma mem_In (f : file_id) (l : list file_id) : mem f l = true <-> In f l.
Proof.
  unfold mem. rewrite existsb_exists. split.
  - intros (g & HIn & E). apply String.eqb_eq in E. subst g. exact HIn.
  - intro HIn. exists f. split; [ exact HIn | apply String.eqb_refl ].
Qed.

Lemma mem_add_inv (f g : file_id) (l : list file_id) :
  mem g (add f l) = true -> g = f \/ mem g l = true.
Proof.
  unfold add. destruct (mem f l); [ auto | ].
  unfold mem. simpl. intro H. apply orb_prop in H.
  destruct H as [H | H]; [ left; apply String.eqb_eq; exact H | right; exact H ].
Qed.

Lemma add_appends (f : file_id) (l : list file_id) :
  exists later, add f l = (later ++ l)%list.
Proof.
  unfold add. destruct (mem f l); [ exists [] | exists [f] ]; reflexivity.
Qed.

Lemma enters_after_refl st : enters_after st st.
Proof. exists []. reflexivity. Qed.

Lemma enters_after_trans a b c :
  enters_after a b -> enters_after b c -> enters_after a c.
Proof.
  intros [l1 E1] [l2 E2]. exists (l2 ++ l1)%list.
  rewrite E2, E1. apply app_assoc.
Qed.

Lemma enters_after_mark_entered f st : enters_after st (mark_entered f st).
Proof. simpl. apply add_appends. Qed.

Section Order.

Variable fs : filesystem.
Variable enter : file_id -> pp_state -> result outcome.
Variable self : file_id.
Hypothesis enter_appending : appending enter.

Lemma do_include_appends h st r :
  do_include fs enter self h st = Ok r -> enters_after st (fst r).
Proof.
  unfold do_include. destruct (resolve fs self h) as [f | ]; [ | discriminate ].
  destruct (mem f (once st)).
  - intros [= <-]. apply enters_after_refl.
  - intro H. apply enter_appending in H.
    eapply enters_after_trans; [ apply enters_after_mark_entered | exact H ].
Qed.

Lemma do_import_appends h st r :
  do_import fs enter self h st = Ok r -> enters_after st (fst r).
Proof.
  unfold do_import. destruct (resolve fs self h) as [f | ]; [ | discriminate ].
  destruct (mem f (entered st)).
  - intros [= <-]. exists []. reflexivity.
  - intro H. apply enter_appending in H.
    eapply enters_after_trans; [ | exact H ].
    apply (enters_after_mark_entered f (mark_once f st)).
Qed.

Lemma exec_line_appends l st r :
  exec_line fs enter self l st = Ok r -> enters_after st (fst r).
Proof.
  destruct l as [ | t | d | t ]; simpl;
    try (intros [= <-]; apply enters_after_refl).
  destruct d; simpl; try discriminate.
  - intros [= <-]. exists []. reflexivity.
  - apply do_include_appends.
  - apply do_import_appends.
Qed.

Lemma run_appends ls : forall st r,
  run fs enter self ls st = Ok r -> enters_after st (fst r).
Proof.
  induction ls as [ | l ls IH ]; intros st r; simpl.
  - intros [= <-]. apply enters_after_refl.
  - destruct (exec_line fs enter self l st) as [a | e] eqn:Ea; simpl;
      [ | discriminate ].
    destruct (run fs enter self ls (fst a)) as [b | e] eqn:Eb; simpl;
      [ | discriminate ].
    intros [= <-]. simpl.
    eapply enters_after_trans; [ eapply exec_line_appends; exact Ea | ].
    apply IH. exact Eb.
Qed.

Lemma process_text_appends cfg text st r :
  process_text fs enter self cfg text st = Ok r -> enters_after st (fst r).
Proof.
  unfold process_text.
  destruct (select cfg [] (classified text)); [ apply run_appends | discriminate ].
Qed.

End Order.

Lemma process_file_appending cfg fs depth : appending (process_file cfg fs depth).
Proof.
  induction depth as [ | d IH ]; intros f st r; simpl.
  - discriminate.
  - apply process_text_appends. exact IH.
Qed.

(** After the header, the file of each framework header has been entered. *)
Lemma imported_file_is_entered cfg fs depth self st r p f :
  preprocess_bridge cfg fs depth self st = Ok r ->
  In p exposed_paths ->
  resolve fs self (Quoted p) = Some f ->
  mem f (entered (fst r)) = true.
Proof.
  intros H Hp Rp.
  unfold preprocess_bridge in H. rewrite process_bridge_unfold in H.
  apply five_in_order_inv in H.
  destruct H as (t & a & b & c & e & E0 & E1 & E2 & E3 & E4 & ->).
  pose proof (process_file_monotone cfg fs depth) as M.
  pose proof (do_import_grows fs _ self M _ _ _ E2) as G2.
  pose proof (do_import_grows fs _ self M _ _ _ E3) as G3.
  pose proof (do_import_grows fs _ self M _ _ _ E4) as G4.
  unfold exposed_paths in Hp. simpl in Hp.
  destruct Hp as [<- | [<- | [<- | [<- | []]]]].
  - apply G4, G3, G2. exact (proj2 (do_import_marks _ _ _ _ _ _ _ M Rp E1)).
  - apply G4, G3. exact (proj2 (do_import_marks _ _ _ _ _ _ _ M Rp E2)).
  - apply G4. exact (proj2 (do_import_marks _ _ _ _ _ _ _ M Rp E3)).
  - exact (proj2 (do_import_marks _ _ _ _ _ _ _ M Rp E4)).
Qed.

(** The state in which the first import runs holds the tuple file among the
    files entered, at a place that only files already entered before the
    header follow. *)
Lemma tuple_entered_first cfg fs depth self st t f0 :
  resolve fs self (Angle "tuple") = Some f0 ->
  f0 <> self ->
  settled st f0 ->
  do_include fs (process_file cfg fs depth) self (Angle "tuple")
    (mark_once self st) = Ok t ->
  exists later earlier,
    entered (fst t) = (later ++ earlier)%list
    /\ In f0 earlier
    /\ (forall g, In g earlier -> g = f0 \/ In g (entered st)).
Proof.
  intros R0 Ns S0 E0. unfold do_include in E0. rewrite R0 in E0.
  destruct (mem f0 (once (mark_once self st))) eqn:M.
  - injection E0 as <-. exists [], (entered st). simpl.
    split; [ reflexivity | split; [ | auto ] ].
    simpl in M. apply mem_add_inv in M. destruct M as [M | M];
      [ contradiction | ].
    apply mem_In. apply S0. exact M.
  - apply process_file_appending in E0. destruct E0 as [later E].
    simpl in E. exists later, (add f0 (entered st)).
    split; [ exact E | split ].
    + apply mem_In. apply mem_add_same.
    + intros g Hg. apply mem_In in Hg. apply mem_add_inv in Hg.
      destruct Hg as [-> | Hg]; [ left; reflexivity | right ].
      apply mem_In. exact Hg.
Qed.

(** C9, as the code has it: in the header, the line that includes the tuple
    header stands before every line that imports a framework header; hence,
    whenever the header has been processed, the tuple file was entered before
    every framework file that had not been entered before the header. *)
Theorem tuple_entered_before_framework_headers :
  (forall i j p,
      nth_error (classified SwiftCxxBridge_hpp) i
      = Some (Directive (DInclude tuple_header)) ->
      nth_error (classified SwiftCxxBridge_hpp) j
      = Some (Directive (DImport (Quoted p))) ->
      i < j)
  /\ (forall cfg fs depth self st r f0 p f,
        preprocess_bridge cfg fs depth self st = Ok r ->
        resolve fs self tuple_header = Some f0 ->
        f0 <> self ->
        settled st f0 ->
        In p exposed_paths ->
        resolve fs self (Quoted p) = Some f ->
        f <> f0 ->
        mem f (entered st) = false ->
        entered_before (fst r) f0 f).
Proof.
  split.
  - intros i j p Hi Hj. rewrite classified_bridge in Hi, Hj.
    assert (Ei : i = 10).
    { do 10 (destruct i as [ | i ]; [ discriminate Hi | simpl in Hi ]).
      destruct i as [ | i ]; [ reflexivity | simpl in Hi ].
      do 5 (destruct i as [ | i ]; [ discriminate Hi | simpl in Hi ]).
      destruct i; discriminate Hi. }
    subst i.
    do 11 (destruct j as [ | j ]; [ discriminate Hj | simpl in Hj ]).
    lia.
  - intros cfg fs depth self st r f0 p f H R0 Ns S0 Hp Rp Nf Mf.
    pose proof (imported_file_is_entered cfg fs depth self st r p f H Hp Rp) as K.
    unfold preprocess_bridge in H. rewrite process_bridge_unfold in H.
    apply five_in_order_inv in H.
    destruct H as (t & a & b & c & e & E0 & E1 & E2 & E3 & E4 & Hr).
    rewrite Hr in *.
    pose proof (process_file_appending cfg fs depth) as A.
    assert (L : enters_after (fst t) (fst e)).
    { eapply enters_after_trans; [ exact (do_import_appends fs _ self A _ _ _ E1) | ].
      eapply enters_after_trans; [ exact (do_import_appends fs _ self A _ _ _ E2) | ].
      eapply enters_after_trans; [ exact (do_import_appends fs _ self A _ _ _ E3) | ].
      exact (do_import_appends fs _ self A _ _ _ E4). }
    destruct L as [later2 L].
    destruct (tuple_entered_first cfg fs depth self st t f0 R0 Ns S0 E0)
      as (later1 & earlier & E & I0 & Old).
    exists (later2 ++ later1)%list, earlier.
    split; [ rewrite L, E; apply app_assoc | split; [ | exact I0 ] ].
    apply mem_In in K. rewrite L, E, app_assoc in K.
    apply in_app_or in K. destruct K as [K | K]; [ exact K | exfalso ].
    destruct (Old f K) as [-> | G]; [ apply Nf; reflexivity | ].
    apply mem_In in G. rewrite G in Mf. discriminate Mf.
Qed.

Lemma tuple_entered_before_framework_headers_witness :
  10 < 13
  /\ exists r,
       preprocess_bridge all_defined sdk 2 bridge_id initial = Ok r
       /\ entered_before (fst r) "usr/include/c++/v1/tuple"
            "PrivateHeaders/Session/NativeSession.hpp".
Proof.
  split.
  - apply (proj1 tuple_entered_before_framework_headers 10 13
             "Session/NativeSession.hpp"); vm_compute; reflexivity.
  - eexists. split; [ vm_compute; reflexivity | ].
    apply (proj2 tuple_entered_before_framework_headers all_defined sdk 2
             bridge_id initial _ "usr/include/c++/v1/tuple"
             "Session/NativeSession.hpp"
             "PrivateHeaders/Session/NativeSession.hpp").
    + vm_compute. reflexivity.
    + reflexivity.
    + discriminate.
    + intro M. discriminate M.
    + vm_compute. tauto.
    + reflexivity.
    + discriminate.
    + reflexivity.
Defined.

Lemma NoDup_app_apart (x y : list file_id) (a : file_id) :
  NoDup (x ++ y) -> In a x -> In a y -> False.
Proof.
  induction x as [ | b x IH ]; simpl; [ intros _ [] | ].
  intros ND Hx Hy. inversion_clear ND as [ | ? ? Nb ND' ].
  destruct Hx as [-> | Hx].
  - apply Nb. apply in_or_app. right. exact Hy.
  - exact (IH ND' Hx Hy).
Qed.

(** Where no file stands twice among the files entered, two files were
    entered in one order only. *)
Lemma entered_before_asym st a b :
  NoDup (entered st) -> entered_before st a b -> ~ entered_before st b a.
Proof.
  intros ND (l1 & e1 & E1 & Hb1 & Ha1) (l2 & e2 & E2 & Ha2 & Hb2).
  pose proof E2 as E. rewrite E1 in E. apply app_eq_app in E.
  destruct E as (l & [[-> ->] | [-> ->]]).
  - rewrite E2 in ND. apply (NoDup_app_apart _ _ a ND Ha2).
    apply in_or_app. right. exact Ha1.
  - rewrite E1 in ND. apply (NoDup_app_apart _ _ b ND Hb1).
    apply in_or_app. right. exact Hb2.
Qed.

(** C9, as stated, fails: in a translation unit that includes
    Session/NativeSession.hpp before the header, the texts of InputImage.hpp
    and NativeSession.hpp are put out, and their files entered, before the
    tuple header is. *)
Lemma framework_headers_included_before_precede_tuple :
  exists st,
    translation_unit all_defined sdk 3 "main.mm"
      [ DInclude (Quoted "Session/NativeSession.hpp");
        DImport (Quoted "SwiftCxxBridge.hpp") ]
    = Ok (st, [ "struct InputImage;";
                "struct NativeSession;";
                "namespace std { template <class... T> class tuple; }";
                "struct NativeDocumentVerify;";
                "struct NativeLicenseProvider;" ])
    /\ entered_before st "PrivateHeaders/Session/NativeSession.hpp"
         "usr/include/c++/v1/tuple"
    /\ ~ entered_before st "usr/include/c++/v1/tuple"
           "PrivateHeaders/Session/NativeSession.hpp".
Proof.
  eexists. split; [ vm_compute; reflexivity | ].
  assert (B : entered_before
                {| once := [ "PrivateHeaders/License/NativeLicenseProvider.hpp";
                             "PrivateHeaders/NativeDocumentVerify.hpp";
                             "PrivateHeaders/SwiftCxxBridge.hpp";
                             "PrivateHeaders/Frame/InputImage.hpp";
                             "PrivateHeaders/Session/NativeSession.hpp" ];
                   entered := [ "PrivateHeaders/License/NativeLicenseProvider.hpp";
                                "PrivateHeaders/NativeDocumentVerify.hpp";
                                "usr/include/c++/v1/tuple";
                                "PrivateHeaders/SwiftCxxBridge.hpp";
                                "PrivateHeaders/Frame/InputImage.hpp";
                                "PrivateHeaders/Session/NativeSession.hpp" ] |}
                "PrivateHeaders/Session/NativeSession.hpp"
                "usr/include/c++/v1/tuple").
  { exists [ "PrivateHeaders/License/NativeLicenseProvider.hpp";
             "PrivateHeaders/NativeDocumentVerify.hpp";
             "usr/include/c++/v1/tuple" ],
           [ "PrivateHeaders/SwiftCxxBridge.hpp";
             "PrivateHeaders/Frame/InputImage.hpp";
             "PrivateHeaders/Session/NativeSession.hpp" ].
    split; [ reflexivity | split; simpl; tauto ]. }
  split; [ exact B | ].
  apply entered_before_asym; [ | exact B ].
  simpl. repeat constructor; simpl; intuition discriminate.
Qed.
